(** * docGPT: the HTTP gateway (app.py) and the Telegram handlers (handler.py)

    A shallow embedding of the two front-end files.  Every handler is a
    straight-line [try]/[except] block around calls to collaborators that the
    front-ends import ([utils], the Telegram SDK, FastAPI).  The collaborators
    are not part of these files: their outcomes are the fields of an
    environment [Env], and every call is recorded in a trace, so that what a
    handler emits, and in which order, can be stated.

    The process state threaded through a handler is a [World]: the files that
    exist on disk and the trace of calls made so far.  The disk changes only
    through [tempfile], the write or download into the temporary file, and
    [os.remove]; these local operations succeed, except [os.remove] on a path
    that does not exist.  Each [await] is one sequential step. *)

From stdpp Require Import gmap strings pretty list fin_maps.

Open Scope string_scope.
Open Scope list_scope.

(** ** Python values *)

(** Instances of Python's [Exception] class, which is what
    [except Exception as e] catches.  [Exception msg] stands for an instance
    of any other subclass whose [str()] is [msg]. *)
Inductive exn : Type :=
| HTTPException (status_code : nat) (detail : string)
| FileNotFoundError (filename : string)
| AttributeError (msg : string)
| Exception (msg : string).

(** A call returns a value or raises. *)
Inductive result (A : Type) : Type :=
| Ok (a : A)
| Raise (e : exn).
Arguments Ok {A} a.
Arguments Raise {A} e.

(** Opaque objects handed out by the collaborators. *)
Definition Message := nat.      (* telegram.Message, by message_id *)
Definition File := nat.         (* telegram.File *)
Definition Embeddings := nat.   (* an OpenAIEmbeddings instance *)
Definition VectorStore := nat.  (* the handle returned by qdrant_client() *)

(** A JSON object with string values, as the endpoints return it. *)
Definition json := list (string * string).

Record Document := { file_id : string }.

(** [update.message], restricted to the attributes the handlers read. *)
Record Update := {
  message_text : option string;
  message_document : option Document
}.

(** The uploaded file; [file_read] is what [file.file.read()] returns. *)
Record UploadFile := { filename : string; file_read : string }.

Record QuestionRequest := { question : string }.

(** ** Trace of calls

    One event per call that leaves the handler, logged when the call is made,
    whether it then returns or raises. *)
Inductive event : Type :=
| E_reply_text (text : string)
| E_edit_text (m : Message) (text : string)
| E_get_file (fid : string)
| E_download_to_drive (f : File) (p : string)
| E_NamedTemporaryFile (p : string)
| E_write (p : string) (data : string)
| E_os_remove (p : string)
| E_process_pdf (p : string)
| E_OpenAIEmbeddings (openai_api_key : option string) (model : string)
| E_send_to_qdrant (chunks : list string) (embedding_model : Embeddings)
| E_qdrant_client
| E_qa_ret (store : VectorStore) (q : option string).

(** ** The collaborators

    What each imported function does when called with given arguments.  The
    same [Env] means the same behaviour of every collaborator. *)
Record Env := {
  getenv : string -> option string;
  (* utils.py; [process_pdf] sees the path and the file found there *)
  process_pdf_outcome : string -> option string -> result (list string);
  OpenAIEmbeddings_outcome : option string -> string -> result Embeddings;
  send_to_qdrant_outcome : list string -> Embeddings -> result bool;
  qdrant_client_outcome : result VectorStore;
  qa_ret_outcome : VectorStore -> option string -> result string;
  (* python-telegram-bot *)
  reply_text_outcome : Update -> string -> result Message;
  edit_text_outcome : Message -> string -> result unit;
  get_file_outcome : string -> result File;
  download_to_drive_outcome : File -> result string;
  check_update : string -> Update -> bool;   (* CommandHandler(command).check_update *)
  (* starlette: HTTPException.__str__ *)
  str_HTTPException : nat -> string -> string
}.

(** ** Process state and the handler monad *)

Record World := {
  fs : gmap string string;     (* path -> contents of the files that exist *)
  trace : list event
}.

Definition M (A : Type) : Type := World -> result A * World.

Definition ret {A} (a : A) : M A := fun w => (Ok a, w).

Definition bind {A B} (m : M A) (k : A -> M B) : M B :=
  fun w =>
    match m w with
    | (Ok a, w') => k a w'
    | (Raise e, w') => (Raise e, w')
    end.

Definition raise {A} (e : exn) : M A := fun w => (Raise e, w).

(** [try: body except Exception as e: handler e] *)
Definition try_except {A} (body : M A) (handler : exn -> M A) : M A :=
  fun w =>
    match body w with
    | (Ok a, w') => (Ok a, w')
    | (Raise e, w') => handler e w'
    end.

#[global] Instance M_ret : MRet M := @ret.
#[global] Instance M_bind : MBind M := fun A B k m => bind m k.

Definition log (e : event) (w : World) : World :=
  {| fs := fs w; trace := trace w ++ [e] |}.

(** A call to a collaborator: logged, then it returns or raises. *)
Definition call {A} (e : event) (r : result A) : M A :=
  fun w => (r, log e w).

(** ** tempfile and os *)

(** The name [tempfile] picks: one that no existing file has. *)
Definition mktemp_name (files : gmap string string) : string := fresh (dom files).

(** [tempfile.NamedTemporaryFile(delete=False, suffix=".pdf")]: creates an
    empty file under a fresh name.  With [delete=False], leaving the [with]
    block closes the file and does not remove it. *)
Definition NamedTemporaryFile : M string :=
  fun w =>
    let p := mktemp_name (fs w) in
    (Ok p, {| fs := <[p := ""]> (fs w); trace := trace w ++ [E_NamedTemporaryFile p] |}).

(** [temp_file.write(data)] on the file just created. *)
Definition write (p data : string) : M unit :=
  fun w => (Ok tt, {| fs := <[p := data]> (fs w); trace := trace w ++ [E_write p data] |}).

(** [os.remove(path)] *)
Definition os_remove (p : string) : M unit :=
  fun w =>
    match fs w !! p with
    | Some _ => (Ok tt, {| fs := delete p (fs w); trace := trace w ++ [E_os_remove p] |})
    | None => (Raise (FileNotFoundError p), log (E_os_remove p) w)
    end.

Definition exists_file (p : string) (w : World) : bool := bool_decide (is_Some (fs w !! p)).

(** The events a run added to the trace it started from. *)
Definition emitted (w w' : World) : list event := drop (length (trace w)) (trace w').

Definition nl : string := String (Ascii.ascii_of_nat 10) "".

Section Collaborators.
Context (env : Env).

(** [str(e)] *)
Definition str (e : exn) : string :=
  match e with
  | HTTPException status_code detail => str_HTTPException env status_code detail
  | FileNotFoundError p => "[Errno 2] No such file or directory: '" +:+ p +:+ "'"
  | AttributeError msg => msg
  | Exception msg => msg
  end.

(** from utils import process_pdf, send_to_qdrant, qdrant_client, qa_ret,
    OpenAIEmbeddings *)
Definition process_pdf (p : string) : M (list string) :=
  fun w => call (E_process_pdf p) (process_pdf_outcome env p (fs w !! p)) w.

Definition OpenAIEmbeddings (openai_api_key : option string) (model : string) : M Embeddings :=
  call (E_OpenAIEmbeddings openai_api_key model)
       (OpenAIEmbeddings_outcome env openai_api_key model).

Definition send_to_qdrant (chunks : list string) (embedding_model : Embeddings) : M bool :=
  call (E_send_to_qdrant chunks embedding_model)
       (send_to_qdrant_outcome env chunks embedding_model).

Definition qdrant_client : M VectorStore :=
  call E_qdrant_client (qdrant_client_outcome env).

Definition qa_ret (store : VectorStore) (q : option string) : M string :=
  call (E_qa_ret store q) (qa_ret_outcome env store q).

(** [update.message.reply_text(text)] *)
Definition reply_text (update : Update) (text : string) : M Message :=
  call (E_reply_text text) (reply_text_outcome env update text).

(** [message.edit_text(text)] *)
Definition edit_text (m : Message) (text : string) : M unit :=
  call (E_edit_text m text) (edit_text_outcome env m text).

(** [context.bot.get_file(file_id)] *)
Definition get_file (fid : string) : M File :=
  call (E_get_file fid) (get_file_outcome env fid).

(** [pdf_file.download_to_drive(path)]: on success the downloaded bytes are
    the contents of [path]. *)
Definition download_to_drive (f : File) (p : string) : M unit :=
  fun w =>
    match download_to_drive_outcome env f with
    | Ok data => (Ok tt, {| fs := <[p := data]> (fs w);
                            trace := trace w ++ [E_download_to_drive f p] |})
    | Raise e => (Raise e, log (E_download_to_drive f p) w)
    end.

(** [update.message.document.file_id]; [document] is [None] on a message
    without an attachment. *)
Definition document_file_id (update : Update) : M string :=
  match message_document update with
  | Some d => ret (file_id d)
  | None => raise (AttributeError "'NoneType' object has no attribute 'file_id'")
  end.
End Collaborators.

(** ** app.py *)
Module App.
Section Handlers.
Context (env : Env).

(** app.py, line 14 *)
Definition start_command_l14 (update : Update) : M unit :=
  _ ← reply_text env update
        "Hello! I am your PDF assistant bot. Send me a PDF file and then ask questions about it.";
  mret tt.

(** app.py, line 17 *)
Definition help_command_l17 (update : Update) : M unit :=
  _ ← reply_text env update
        ("Commands:" +:+ nl +:+ "/start - Start the bot" +:+ nl +:+ "/help - Show this help message");
  mret tt.

Definition upload_ok : json :=
  [("message", "PDF successfully processed and stored in vector DB")].

(** POST /upload-pdf/ *)
Definition upload_pdf (file : UploadFile) : M json :=
  try_except
    (temp_file_path ← (temp_file ← NamedTemporaryFile;
                       write temp_file (file_read file);;
                       mret temp_file);
     document_chunks ← process_pdf env temp_file_path;
     embedding_model ← OpenAIEmbeddings env (getenv env "OPENAI_API_KEY") "text-embedding-ada-002";
     success ← send_to_qdrant env document_chunks embedding_model;
     os_remove temp_file_path;;
     if success : bool
     then mret upload_ok
     else raise (HTTPException 500 "Failed to store PDF in vector DB"))
    (fun e => raise (HTTPException 500 ("Failed to process PDF: " +:+ str env e))).

(** POST /ask-question/ *)
Definition ask_question (question_request : QuestionRequest) : M json :=
  try_except
    (qdrant_store ← qdrant_client env;
     let question := question question_request in
     response ← qa_ret env qdrant_store (Some question);
     mret [("answer", response)])
    (fun e => raise (HTTPException 500 ("Failed to retrieve answer: " +:+ str env e))).

(** GET / *)
Definition health_check : M json := mret [("status", "Hello There!")].

(** app.py, line 125: rebinds the name [start_command] *)
Definition start_command (update : Update) : M unit :=
  let welcome_message :=
    "👋 Welcome to your PDF Q&A Bot!" +:+ nl +:+ nl +:+
    "Here's how to use me:" +:+ nl +:+
    "1. Send me a PDF document 📄" +:+ nl +:+
    "2. Once I process it, you can ask me any questions about its content ❓" +:+ nl +:+
    "3. I'll do my best to answer based on the document content 🤓" +:+ nl +:+ nl +:+
    "Use /help to see all available commands." in
  _ ← reply_text env update welcome_message;
  mret tt.

(** app.py, line 137: rebinds the name [help_command] *)
Definition help_command (update : Update) : M unit :=
  let help_text :=
    "📚 Available Commands:" +:+ nl +:+ nl +:+
    "/start - Start the bot" +:+ nl +:+
    "/help - Show this help message" +:+ nl +:+ nl +:+
    "You can also:" +:+ nl +:+
    "• Send a PDF file to process it" +:+ nl +:+
    "• Ask questions about the processed PDF" +:+ nl in
  _ ← reply_text env update help_text;
  mret tt.

Definition handle_pdf (update : Update) : M unit :=
  try_except
    (processing_message ← reply_text env update "Processing your PDF... 📄";
     fid ← document_file_id update;
     pdf_file ← get_file env fid;
     temp_file_path ← (temp_file ← NamedTemporaryFile;
                       download_to_drive env pdf_file temp_file;;
                       mret temp_file);
     document_chunks ← process_pdf env temp_file_path;
     embedding_model ← OpenAIEmbeddings env (getenv env "OPENAI_API_KEY") "text-embedding-ada-002";
     success ← send_to_qdrant env document_chunks embedding_model;
     os_remove temp_file_path;;
     if success : bool
     then edit_text env processing_message
            "✅ PDF processed successfully! You can now ask me questions about it."
     else edit_text env processing_message
            "❌ Sorry, I couldn't process your PDF. Please try again.")
    (fun e =>
       _ ← reply_text env update
             ("❌ Sorry, an error occurred while processing your PDF: " +:+ str env e);
       mret tt).

Definition handle_question (update : Update) : M unit :=
  try_except
    (thinking_message ← reply_text env update "🤔 Let me think about that...";
     let question := message_text update in
     qdrant_store ← qdrant_client env;
     answer ← qa_ret env qdrant_store question;
     edit_text env thinking_message ("🔍 " +:+ answer))
    (fun e =>
       _ ← reply_text env update
             "❌ Sorry, I couldn't process your question. Make sure you've sent a PDF first!";
       mret tt).
End Handlers.
End App.

(** ** handler.py *)
Module Handler.
Section Handlers.
Context (env : Env).

Definition start_command (update : Update) : M unit :=
  let welcome_message :=
    "👋 Welcome to your PDF Q&A Bot!" +:+ nl +:+ nl +:+
    "Here's how to use me:" +:+ nl +:+
    "1. Send me a PDF document 📄" +:+ nl +:+
    "2. Once I process it, you can ask me any questions about its content ❓" +:+ nl +:+
    "3. I'll do my best to answer based on the document content 🤓" +:+ nl +:+ nl +:+
    "Use /help to see all available commands." in
  _ ← reply_text env update welcome_message;
  mret tt.

Definition help_command (update : Update) : M unit :=
  let help_text :=
    "📚 Available Commands:" +:+ nl +:+ nl +:+
    "/start - Start the bot" +:+ nl +:+
    "/help - Show this help message" +:+ nl +:+ nl +:+
    "You can also:" +:+ nl +:+
    "• Send a PDF file to process it" +:+ nl +:+
    "• Ask questions about the processed PDF" +:+ nl in
  _ ← reply_text env update help_text;
  mret tt.

Definition handle_pdf (update : Update) : M unit :=
  try_except
    (processing_message ← reply_text env update "Processing your PDF... 📄";
     fid ← document_file_id update;
     pdf_file ← get_file env fid;
     temp_file_path ← (temp_file ← NamedTemporaryFile;
                       download_to_drive env pdf_file temp_file;;
                       mret temp_file);
     document_chunks ← process_pdf env temp_file_path;
     embedding_model ← OpenAIEmbeddings env (getenv env "OPENAI_API_KEY") "text-embedding-ada-002";
     success ← send_to_qdrant env document_chunks embedding_model;
     os_remove temp_file_path;;
     if success : bool
     then edit_text env processing_message
            "✅ PDF processed successfully! You can now ask me questions about it."
     else edit_text env processing_message
            "❌ Sorry, I couldn't process your PDF. Please try again.")
    (fun e =>
       _ ← reply_text env update
             ("❌ Sorry, an error occurred while processing your PDF: " +:+ str env e);
       mret tt).

Definition handle_question (update : Update) : M unit :=
  try_except
    (thinking_message ← reply_text env update "🤔 Let me think about that...";
     let question := message_text update in
     qdrant_store ← qdrant_client env;
     answer ← qa_ret env qdrant_store question;
     edit_text env thinking_message ("🔍 " +:+ answer))
    (fun e =>
       _ ← reply_text env update
             "❌ Sorry, I couldn't process your question. Make sure you've sent a PDF first!";
       mret tt).
End Handlers.
End Handler.

(** ** Module-level code of app.py: name binding and handler registration

    [async def f(update, context)] binds the global name [f] to a new function
    object; [bot_app.add_handler(CommandHandler(c, f))] evaluates the name [f]
    when the statement runs and stores the object it finds. *)
Definition callback := Update -> M unit.

Inductive handler : Type :=
| CommandHandler (command : string) (cb : callback).

Inductive stmt : Type :=
| Def (name : string) (f : callback)
| add_CommandHandler (command name : string).

Record module_state := {
  globals : gmap string callback;
  handlers : list handler        (* bot_app's handlers, in registration order *)
}.

(** [None]: the statement raises [NameError] and the import fails. *)
Definition exec (s : stmt) (st : module_state) : option module_state :=
  match s with
  | Def name f =>
      Some {| globals := <[name := f]> (globals st); handlers := handlers st |}
  | add_CommandHandler command name =>
      match globals st !! name with
      | Some f => Some {| globals := globals st;
                          handlers := handlers st ++ [CommandHandler command f] |}
      | None => None
      end
  end.

Fixpoint exec_all (ss : list stmt) (st : module_state) : option module_state :=
  match ss with
  | [] => Some st
  | s :: ss' =>
      match exec s st with
      | Some st' => exec_all ss' st'
      | None => None
      end
  end.

Definition empty_module : module_state := {| globals := ∅; handlers := [] |}.

Definition is_Def (s : stmt) : bool :=
  match s with Def _ _ => true | add_CommandHandler _ _ => false end.

Section Bot.
Context (env : Env).

(** app.py, lines 14 to 25 *)
Definition app_py_head : list stmt :=
  [ Def "start_command" (App.start_command_l14 env);
    Def "help_command" (App.help_command_l17 env);
    add_CommandHandler "start" "start_command";
    add_CommandHandler "help" "help_command" ].

(** app.py, lines 125 to 213 *)
Definition app_py_tail : list stmt :=
  [ Def "start_command" (App.start_command env);
    Def "help_command" (App.help_command env);
    Def "handle_pdf" (App.handle_pdf env);
    Def "handle_question" (App.handle_question env) ].

Definition app_py : list stmt := app_py_head ++ app_py_tail.

Definition registered (ss : list stmt) : list handler :=
  match exec_all ss empty_module with
  | Some st => handlers st
  | None => []
  end.

(** A [telegram.ext.Application]: its handlers, and whether
    [initialize()] has run on it. *)
Record Application := {
  app_handlers : list handler;
  app_initialized : bool
}.

(** app.py, lines 23 to 25: the application is built and the two handlers
    are added.  No statement of app.py awaits [bot_app.initialize()], nor
    [start()], [run_webhook()] or [async with bot_app]; the startup hook
    (lines 27 to 33) only sets the webhook URL. *)
Definition bot_app : Application :=
  {| app_handlers := registered app_py; app_initialized := false |}.

(** The handlers of an initialized application: the first one whose
    [check_update] accepts the update runs. *)
Fixpoint dispatch (hs : list handler) (update : Update) : M unit :=
  match hs with
  | [] => mret tt
  | CommandHandler command cb :: hs' =>
      if check_update env command update then cb update else dispatch hs' update
  end.

(** [Application.process_update], as python-telegram-bot documents it: it
    raises [RuntimeError] when the application was not initialized;
    otherwise it dispatches, and an exception a handler raises is given to
    the error handlers (none is registered) and goes no further. *)
Definition process_update (app : Application) (update : Update) : M unit :=
  if app_initialized app
  then try_except (dispatch (app_handlers app) update) (fun _ => mret tt)
  else raise (Exception "This Application was not initialized via `Application.initialize`!").

(** The webhook request, by what
    [Update.de_json(await request.json(), bot_app.bot)] makes of its body:
    the update, or the exception that reading or parsing it raises. *)
Record Request := { request_update : result Update }.

Definition de_json (request : Request) : M Update :=
  fun w => (request_update request, w).

(** POST /telegram/webhook; nothing here is inside a [try]. *)
Definition telegram_webhook (request : Request) : M json :=
  update ← de_json request;
  process_update bot_app update;;
  mret [("status", "ok")].

(** *** The HTTP surface *)
Inductive request : Type :=
| POST_upload_pdf (file : UploadFile)
| POST_ask_question (question_request : QuestionRequest)
| GET_root
| POST_telegram_webhook (request : Request).

Definition route (r : request) : M json :=
  match r with
  | POST_upload_pdf file => App.upload_pdf env file
  | POST_ask_question q => App.ask_question env q
  | GET_root => App.health_check
  | POST_telegram_webhook request => telegram_webhook request
  end.

(** The process after serving a list of requests one after another. *)
Definition serve_all (rs : list request) (w : World) : World :=
  foldl (fun w r => snd (route r w)) w rs.
End Bot.

(** ** Concrete collaborators, for running the handlers *)
Module Fixtures.
(** Collaborators with fixed outcomes; [rp] decides [reply_text] by the
    text sent. *)
Definition stub (pp : result (list string)) (em : result Embeddings) (sq : result bool)
    (qc : result VectorStore) (qa : result string)
    (rp : string -> result Message) (ed : result unit) : Env :=
  {| getenv := fun _ => Some "sk-test";
     process_pdf_outcome := fun _ _ => pp;
     OpenAIEmbeddings_outcome := fun _ _ => em;
     send_to_qdrant_outcome := fun _ _ => sq;
     qdrant_client_outcome := qc;
     qa_ret_outcome := fun _ _ => qa;
     reply_text_outcome := fun _ => rp;
     edit_text_outcome := fun _ _ => ed;
     get_file_outcome := fun _ => Ok 7;
     download_to_drive_outcome := fun _ => Ok "%PDF-1.4 The sky is blue.";
     check_update := fun c u => bool_decide (message_text u = Some ("/" +:+ c));
     str_HTTPException := fun status_code detail => pretty status_code +:+ ": " +:+ detail |}.

Definition sent : string -> result Message := fun _ => Ok 1.

Definition boom : exn := Exception "boom".

(** Everything works. *)
Definition env_ok : Env :=
  stub (Ok ["The sky is blue."]) (Ok 2) (Ok true) (Ok 3) (Ok "blue") sent (Ok tt).

(** [send_to_qdrant] returns [False]. *)
Definition env_not_stored : Env :=
  stub (Ok ["The sky is blue."]) (Ok 2) (Ok false) (Ok 3) (Ok "blue") sent (Ok tt).

(** One collaborator raises. *)
Definition env_process_pdf_raises : Env :=
  stub (Raise boom) (Ok 2) (Ok true) (Ok 3) (Ok "blue") sent (Ok tt).
Definition env_embeddings_raise : Env :=
  stub (Ok ["The sky is blue."]) (Raise boom) (Ok true) (Ok 3) (Ok "blue") sent (Ok tt).
Definition env_send_to_qdrant_raises : Env :=
  stub (Ok ["The sky is blue."]) (Ok 2) (Raise boom) (Ok 3) (Ok "blue") sent (Ok tt).
Definition env_qdrant_client_raises : Env :=
  stub (Ok []) (Ok 2) (Ok true) (Raise boom) (Ok "blue") sent (Ok tt).
Definition env_qa_ret_raises : Env :=
  stub (Ok []) (Ok 2) (Ok true) (Ok 3) (Raise boom) sent (Ok tt).
Definition env_edit_raises : Env :=
  stub (Ok []) (Ok 2) (Ok true) (Ok 3) (Ok "blue") sent (Raise boom).
(** Sending the placeholder fails, later replies go through. *)
Definition env_placeholder_raises : Env :=
  stub (Ok []) (Ok 2) (Ok true) (Ok 3) (Ok "blue")
       (fun text => if bool_decide (text = "🤔 Let me think about that...")
                    then Raise boom else Ok 1)
       (Ok tt).

Definition w0 : World := {| fs := ∅; trace := [] |}.

Definition sky_pdf : UploadFile :=
  {| filename := "sky.pdf"; file_read := "%PDF-1.4 The sky is blue." |}.

Definition pdf_update : Update :=
  {| message_text := None; message_document := Some {| file_id := "BQACAgQAAx0" |} |}.

Definition text_update (text : string) : Update :=
  {| message_text := Some text; message_document := None |}.
End Fixtures.

Import Fixtures.

(** ** Statements about a run of [handle_pdf] *)

(** The acknowledgment was sent, it is message [m], and a later call edits
    that same message. *)
Definition acknowledged_then_edited (env : Env) (u : Update) (w : World) : Prop :=
  exists (m : Message) (text : string) (between after : list event),
    reply_text_outcome env u "Processing your PDF... 📄" = Ok m
    /\ emitted w (snd (App.handle_pdf env u w))
       = E_reply_text "Processing your PDF... 📄"
         :: between ++ E_edit_text m text :: after.

(** ** More collaborators and states, for the edge paths *)
Module Scenarios.
(** [env] with [get_file] and the download replaced. *)
Definition with_telegram_file (gf : result File) (dl : result string) (env : Env) : Env :=
  {| getenv := getenv env;
     process_pdf_outcome := process_pdf_outcome env;
     OpenAIEmbeddings_outcome := OpenAIEmbeddings_outcome env;
     send_to_qdrant_outcome := send_to_qdrant_outcome env;
     qdrant_client_outcome := qdrant_client_outcome env;
     qa_ret_outcome := qa_ret_outcome env;
     reply_text_outcome := reply_text_outcome env;
     edit_text_outcome := edit_text_outcome env;
     get_file_outcome := fun _ => gf;
     download_to_drive_outcome := fun _ => dl;
     check_update := check_update env;
     str_HTTPException := str_HTTPException env |}.

Definition env_get_file_raises : Env :=
  with_telegram_file (Raise boom) (Ok "%PDF-1.4") env_ok.

Definition env_download_raises : Env :=
  with_telegram_file (Ok 7) (Raise boom) env_ok.


(** The acknowledgment cannot be sent, later replies go through. *)
Definition env_acknowledgment_raises : Env :=
  stub (Ok ["The sky is blue."]) (Ok 2) (Ok true) (Ok 3) (Ok "blue")
       (fun text => if bool_decide (text = "Processing your PDF... 📄")
                    then Raise boom else Ok 1)
       (Ok tt).

(** A disk that already holds a file. *)
Definition w_old : World := {| fs := {[ "/tmp/old.pdf" := "old" ]}; trace := [] |}.
End Scenarios.

Import Scenarios.

(** * Properties *)

(** ** Running a handler symbolically *)

Lemma mktemp_name_fresh (files : gmap string string) : files !! mktemp_name files = None.
Proof.
  unfold mktemp_name. apply not_elem_of_dom. apply is_fresh.
Qed.

(** The temporary file, once written and removed, leaves the disk as it was. *)
Lemma remove_written_temp (files : gmap string string) (a b : string) :
  delete (mktemp_name files) (<[mktemp_name files := b]> (<[mktemp_name files := a]> files))
  = files.
Proof.
  rewrite insert_insert_eq, delete_insert_eq. apply delete_id, mktemp_name_fresh.
Qed.

Ltac unfold_handler :=
  unfold App.upload_pdf, App.ask_question, App.handle_pdf, App.handle_question,
    App.start_command, App.help_command, App.start_command_l14, App.help_command_l17,
    App.health_check,
    Handler.handle_pdf, Handler.handle_question, Handler.start_command, Handler.help_command,
    document_file_id,
    try_except, mbind, M_bind, bind, mret, M_ret, ret, raise,
    NamedTemporaryFile, write, os_remove, process_pdf, OpenAIEmbeddings, send_to_qdrant,
    qdrant_client, qa_ret, reply_text, edit_text, get_file, download_to_drive,
    call, log;
  cbn [fs trace fst snd].

Ltac step :=
  cbn [fs trace fst snd];
  rewrite ?lookup_insert_eq, ?remove_written_temp.

(** Every run of [handle_pdf] on a document starts the same way:
    acknowledgment, file id, [get_file], temporary file, download. *)
Ltac to_process_pdf Hack Hd Hgf Hdl :=
  unfold_handler; rewrite Hack, Hd; step; rewrite Hgf; step; rewrite Hdl; step.

(** Rewrites with every equation about a collaborator's outcome. *)
Ltac outcomes :=
  repeat match goal with
         | H : _ = Ok _ |- _ => rewrite H; clear H; step
         | H : _ = Raise _ |- _ => rewrite H; clear H; step
         end.

(** Case analysis on the outcome the goal is waiting for. *)
Ltac case_outcome :=
  match goal with
  | |- context [match ?r with Ok _ => _ | Raise _ => _ end] => destruct r
  end.

Lemma emitted_app (w w' : World) (evs : list event) :
  trace w' = trace w ++ evs -> emitted w w' = evs.
Proof.
  intros H. unfold emitted. rewrite H. apply drop_app_length.
Qed.

Ltac new_events :=
  apply emitted_app; cbn [fs trace fst snd];
  rewrite <- ?app_assoc; reflexivity.

(** ** POST /upload-pdf/ *)

(** C3: when [process_pdf], the construction of the embedding model and
    [send_to_qdrant] all return and the last returns [True], [upload_pdf]
    returns exactly the success message; when one of the three raises an
    exception [e], [upload_pdf] raises [HTTPException] with status 500 and a
    detail that ends with [str(e)]. *)
Theorem upload_pdf_contract (env : Env) (file : UploadFile) (w : World) :
  let p := mktemp_name (fs w) in
  let data := Some (file_read file) in
  let key := getenv env "OPENAI_API_KEY" in
  let model := "text-embedding-ada-002" in
  let failed e := Raise (HTTPException 500 ("Failed to process PDF: " +:+ str env e)) in
  (forall chunks emb,
      process_pdf_outcome env p data = Ok chunks ->
      OpenAIEmbeddings_outcome env key model = Ok emb ->
      send_to_qdrant_outcome env chunks emb = Ok true ->
      fst (App.upload_pdf env file w)
      = Ok [("message", "PDF successfully processed and stored in vector DB")])
  /\ (forall e,
      process_pdf_outcome env p data = Raise e ->
      fst (App.upload_pdf env file w) = failed e)
  /\ (forall chunks e,
      process_pdf_outcome env p data = Ok chunks ->
      OpenAIEmbeddings_outcome env key model = Raise e ->
      fst (App.upload_pdf env file w) = failed e)
  /\ (forall chunks emb e,
      process_pdf_outcome env p data = Ok chunks ->
      OpenAIEmbeddings_outcome env key model = Ok emb ->
      send_to_qdrant_outcome env chunks emb = Raise e ->
      fst (App.upload_pdf env file w) = failed e).
Proof.
  intros p data key model failed. subst p data key model failed.
  repeat split; intros; unfold_handler; step; outcomes; reflexivity.
Qed.

Lemma upload_pdf_contract_witness :
  fst (App.upload_pdf env_ok sky_pdf w0)
  = Ok [("message", "PDF successfully processed and stored in vector DB")]
  /\ fst (App.upload_pdf env_process_pdf_raises sky_pdf w0)
     = Raise (HTTPException 500 "Failed to process PDF: boom")
  /\ fst (App.upload_pdf env_embeddings_raise sky_pdf w0)
     = Raise (HTTPException 500 "Failed to process PDF: boom")
  /\ fst (App.upload_pdf env_send_to_qdrant_raises sky_pdf w0)
     = Raise (HTTPException 500 "Failed to process PDF: boom").
Proof.
  split; [|split; [|split]].
  - apply (proj1 (upload_pdf_contract env_ok sky_pdf w0) ["The sky is blue."] 2);
      reflexivity.
  - apply (proj1 (proj2 (upload_pdf_contract env_process_pdf_raises sky_pdf w0)) boom);
      reflexivity.
  - apply (proj1 (proj2 (proj2 (upload_pdf_contract env_embeddings_raise sky_pdf w0)))
             ["The sky is blue."] boom); reflexivity.
  - apply (proj2 (proj2 (proj2 (upload_pdf_contract env_send_to_qdrant_raises sky_pdf w0)))
             ["The sky is blue."] 2 boom); reflexivity.
Defined.

(** C9: whenever [send_to_qdrant] returns, the temporary file is gone when
    the response is produced, for [True] and for [False] alike: [os.remove]
    is the last call made, the disk is as it was before the request, and only
    then the result is inspected.  On [False] the [HTTPException] raised in
    the [else] branch is itself caught by [except Exception], so the 500 that
    leaves the handler has that exception's text in its detail. *)
Theorem upload_pdf_removes_temp_file_before_responding
    (env : Env) (file : UploadFile) (w : World)
    (chunks : list string) (emb : Embeddings) (b : bool) :
  let p := mktemp_name (fs w) in
  let key := getenv env "OPENAI_API_KEY" in
  let model := "text-embedding-ada-002" in
  process_pdf_outcome env p (Some (file_read file)) = Ok chunks ->
  OpenAIEmbeddings_outcome env key model = Ok emb ->
  send_to_qdrant_outcome env chunks emb = Ok b ->
  let run := App.upload_pdf env file w in
  exists_file p (snd run) = false
  /\ fs (snd run) = fs w
  /\ emitted w (snd run)
     = [E_NamedTemporaryFile p; E_write p (file_read file); E_process_pdf p;
        E_OpenAIEmbeddings key model; E_send_to_qdrant chunks emb; E_os_remove p]
  /\ fst run
     = if b
       then Ok [("message", "PDF successfully processed and stored in vector DB")]
       else Raise (HTTPException 500
                     ("Failed to process PDF: "
                      +:+ str env (HTTPException 500 "Failed to store PDF in vector DB"))).
Proof.
  intros p key model Hpp Hem Hsq run.
  assert (Hrun : run =
    (if b
     then Ok [("message", "PDF successfully processed and stored in vector DB")]
     else Raise (HTTPException 500
                   ("Failed to process PDF: "
                    +:+ str env (HTTPException 500 "Failed to store PDF in vector DB"))),
     {| fs := fs w;
        trace := trace w ++
          [E_NamedTemporaryFile p; E_write p (file_read file); E_process_pdf p;
           E_OpenAIEmbeddings key model; E_send_to_qdrant chunks emb; E_os_remove p] |})).
  { subst run p key model. unfold_handler. step. outcomes.
    rewrite <- !app_assoc. destruct b; reflexivity. }
  rewrite Hrun. cbn [fst snd fs trace].
  split; [|split; [|split]]; try reflexivity.
  - unfold exists_file. cbn [fs]. apply bool_decide_eq_false.
    subst p. rewrite mktemp_name_fresh. apply is_Some_None.
  - apply emitted_app. reflexivity.
Qed.

Lemma upload_pdf_removes_temp_file_before_responding_witness :
  exists_file "0" (snd (App.upload_pdf env_not_stored sky_pdf w0)) = false
  /\ fst (App.upload_pdf env_not_stored sky_pdf w0)
     = Raise (HTTPException 500
                "Failed to process PDF: 500: Failed to store PDF in vector DB").
Proof.
  destruct (upload_pdf_removes_temp_file_before_responding
              env_not_stored sky_pdf w0 ["The sky is blue."] 2 false
              eq_refl eq_refl eq_refl) as (Hgone & _ & _ & Hresp).
  split; [exact Hgone | exact Hresp].
Defined.

(** When [process_pdf] raises, nothing on the way out removes the temporary
    file: it is still on disk, with the uploaded bytes in it. *)
Lemma upload_pdf_leaves_temp_file (env : Env) (file : UploadFile) (w : World) (e : exn) :
  process_pdf_outcome env (mktemp_name (fs w)) (Some (file_read file)) = Raise e ->
  fs (snd (App.upload_pdf env file w)) !! mktemp_name (fs w) = Some (file_read file).
Proof.
  intros Hpp. unfold_handler. step. rewrite Hpp. step. reflexivity.
Qed.

Lemma handle_pdf_leaves_temp_file (env : Env) (u : Update) (w : World)
    (d : Document) (m : Message) (f : File) (data : string) (e : exn) :
  message_document u = Some d ->
  reply_text_outcome env u "Processing your PDF... 📄" = Ok m ->
  get_file_outcome env (file_id d) = Ok f ->
  download_to_drive_outcome env f = Ok data ->
  process_pdf_outcome env (mktemp_name (fs w)) (Some data) = Raise e ->
  fs (snd (Handler.handle_pdf env u w)) !! mktemp_name (fs w) = Some data.
Proof.
  intros Hd Hack Hgf Hdl Hpp. unfold_handler.
  rewrite Hack, Hd. step. rewrite Hgf. step. rewrite Hdl. step. rewrite Hpp. step.
  case_outcome; cbn [fs snd]; apply lookup_insert_eq.
Qed.

(** C1: the claim asks that the temporary file be gone on every exit path.
    Run on an upload for which [process_pdf] raises, both [upload_pdf] and
    [handle_pdf] finish with the file ["0"] they created still on disk. *)
Theorem temp_file_survives_raising_process_pdf :
  mktemp_name (fs w0) = "0"
  /\ fst (App.upload_pdf env_process_pdf_raises sky_pdf w0)
     = Raise (HTTPException 500 "Failed to process PDF: boom")
  /\ exists_file "0" (snd (App.upload_pdf env_process_pdf_raises sky_pdf w0)) = true
  /\ fst (Handler.handle_pdf env_process_pdf_raises pdf_update w0) = Ok tt
  /\ exists_file "0" (snd (Handler.handle_pdf env_process_pdf_raises pdf_update w0)) = true.
Proof.
  repeat split; vm_compute; reflexivity.
Qed.

(** ** POST /ask-question/ *)

(** C4: [ask_question] either returns the object whose ["answer"] is the
    string [qa_ret] produced for the handle of [qdrant_client] and the
    question asked, or raises [HTTPException] with status 500; whatever
    [qdrant_client] or [qa_ret] raises is turned into that 500. *)
Theorem ask_question_answers_or_500 (env : Env) (q : QuestionRequest) (w : World) :
  (exists store a,
      qdrant_client_outcome env = Ok store
      /\ qa_ret_outcome env store (Some (question q)) = Ok a
      /\ fst (App.ask_question env q w) = Ok [("answer", a)])
  \/ (exists e,
      (qdrant_client_outcome env = Raise e
       \/ exists store, qdrant_client_outcome env = Ok store
                        /\ qa_ret_outcome env store (Some (question q)) = Raise e)
      /\ fst (App.ask_question env q w)
         = Raise (HTTPException 500 ("Failed to retrieve answer: " +:+ str env e))).
Proof.
  unfold_handler.
  destruct (qdrant_client_outcome env) as [store | e] eqn:Hqc.
  - destruct (qa_ret_outcome env store (Some (question q))) as [a | e] eqn:Hqa.
    + left. exists store, a. auto.
    + right. exists e. split; [right; exists store; auto | reflexivity].
  - right. exists e. split; [left |]; reflexivity.
Qed.

(** C6: the answer of [ask_question] does not depend on the process state it
    runs in, and the call leaves the disk untouched; asking the same question
    again, right after or from any other state, gives the same response. *)
Theorem ask_question_stable (env : Env) (q : QuestionRequest) (w w' : World) :
  fst (App.ask_question env q w) = fst (App.ask_question env q w')
  /\ fs (snd (App.ask_question env q w)) = fs w
  /\ fst (App.ask_question env q (snd (App.ask_question env q w)))
     = fst (App.ask_question env q w).
Proof.
  assert (Hany : forall v,
    fst (App.ask_question env q v)
    = match qdrant_client_outcome env with
      | Ok store =>
          match qa_ret_outcome env store (Some (question q)) with
          | Ok a => Ok [("answer", a)]
          | Raise e => Raise (HTTPException 500 ("Failed to retrieve answer: " +:+ str env e))
          end
      | Raise e => Raise (HTTPException 500 ("Failed to retrieve answer: " +:+ str env e))
      end).
  { intros v. unfold_handler.
    destruct (qdrant_client_outcome env) as [store | e]; [|reflexivity].
    destruct (qa_ret_outcome env store _); reflexivity. }
  split; [|split].
  - now rewrite !Hany.
  - unfold_handler.
    destruct (qdrant_client_outcome env) as [store | e]; [|reflexivity].
    destruct (qa_ret_outcome env store _); reflexivity.
  - now rewrite !Hany.
Qed.

(** ** GET / *)

(** C8: after any list of earlier requests, uploads, questions and webhook
    calls, failed or not, [GET /] returns exactly the status object and
    changes nothing. *)
Theorem health_check_constant (env : Env) (earlier : list request) (w : World) :
  route env GET_root (serve_all env earlier w)
  = (Ok [("status", "Hello There!")], serve_all env earlier w).
Proof.
  reflexivity.
Qed.

(** ** The Telegram handlers *)

(** C7: the four handlers of handler.py and the handlers of the same names
    at lines 125 to 213 of app.py do the same on every update, from every
    state: same result, same files, same sequence of replies, edits and
    collaborator calls. *)
Theorem handler_py_matches_app_py (env : Env) (u : Update) (w : World) :
  Handler.start_command env u w = App.start_command env u w
  /\ Handler.help_command env u w = App.help_command env u w
  /\ Handler.handle_pdf env u w = App.handle_pdf env u w
  /\ Handler.handle_question env u w = App.handle_question env u w.
Proof.
  repeat split; reflexivity.
Qed.

(** C5: [handle_question], in app.py and in handler.py.  When nothing
    raises, the calls made are the placeholder, [qdrant_client], [qa_ret] on
    the message text, and the edit of the placeholder to "🔍 " followed by
    the answer.  When the placeholder, [qdrant_client], [qa_ret] or the edit
    raises, the next and last call is the reply with the fixed apology, which
    contains "Make sure you've sent a PDF first!". *)
Theorem handle_question_contract (env : Env) (u : Update) (w : World) :
  let thinking := "🤔 Let me think about that..." in
  let apology :=
    "❌ Sorry, I couldn't process your question. Make sure you've sent a PDF first!" in
  let q := message_text u in
  let holds (run : result unit * World) :=
    (forall m store answer,
        reply_text_outcome env u thinking = Ok m ->
        qdrant_client_outcome env = Ok store ->
        qa_ret_outcome env store q = Ok answer ->
        edit_text_outcome env m ("🔍 " +:+ answer) = Ok tt ->
        fst run = Ok tt
        /\ emitted w (snd run)
           = [E_reply_text thinking; E_qdrant_client; E_qa_ret store q;
              E_edit_text m ("🔍 " +:+ answer)])
    /\ (forall e,
        reply_text_outcome env u thinking = Raise e ->
        emitted w (snd run) = [E_reply_text thinking; E_reply_text apology])
    /\ (forall m e,
        reply_text_outcome env u thinking = Ok m ->
        qdrant_client_outcome env = Raise e ->
        emitted w (snd run)
        = [E_reply_text thinking; E_qdrant_client; E_reply_text apology])
    /\ (forall m store e,
        reply_text_outcome env u thinking = Ok m ->
        qdrant_client_outcome env = Ok store ->
        qa_ret_outcome env store q = Raise e ->
        emitted w (snd run)
        = [E_reply_text thinking; E_qdrant_client; E_qa_ret store q; E_reply_text apology])
    /\ (forall m store answer e,
        reply_text_outcome env u thinking = Ok m ->
        qdrant_client_outcome env = Ok store ->
        qa_ret_outcome env store q = Ok answer ->
        edit_text_outcome env m ("🔍 " +:+ answer) = Raise e ->
        emitted w (snd run)
        = [E_reply_text thinking; E_qdrant_client; E_qa_ret store q;
           E_edit_text m ("🔍 " +:+ answer); E_reply_text apology]) in
  holds (App.handle_question env u w)
  /\ holds (Handler.handle_question env u w)
  /\ apology = "❌ Sorry, I couldn't process your question. "
               +:+ "Make sure you've sent a PDF first!".
Proof.
  intros thinking apology q holds.
  assert (H : holds (App.handle_question env u w)).
  { subst holds thinking apology q. cbv beta.
    split; [|split; [|split; [|split]]].
    - intros m store answer Hrp Hqc Hqa Hed. unfold_handler.
      rewrite Hrp. step. rewrite Hqc. step. rewrite Hqa. step. rewrite Hed. step.
      split; [reflexivity | new_events].
    - intros e Hrp. unfold_handler. rewrite Hrp. step.
      case_outcome; new_events.
    - intros m e Hrp Hqc. unfold_handler. rewrite Hrp. step. rewrite Hqc. step.
      case_outcome; new_events.
    - intros m store e Hrp Hqc Hqa. unfold_handler.
      rewrite Hrp. step. rewrite Hqc. step. rewrite Hqa. step.
      case_outcome; new_events.
    - intros m store answer e Hrp Hqc Hqa Hed. unfold_handler.
      rewrite Hrp. step. rewrite Hqc. step. rewrite Hqa. step. rewrite Hed. step.
      case_outcome; new_events. }
  split; [exact H | split; [exact H | reflexivity]].
Qed.

Lemma handle_question_contract_witness :
  emitted w0 (snd (App.handle_question env_ok (text_update "What color is the sky?") w0))
  = [E_reply_text "🤔 Let me think about that..."; E_qdrant_client;
     E_qa_ret 3 (Some "What color is the sky?"); E_edit_text 1 "🔍 blue"]
  /\ emitted w0 (snd (App.handle_question env_placeholder_raises (text_update "hi") w0))
     = [E_reply_text "🤔 Let me think about that...";
        E_reply_text
          "❌ Sorry, I couldn't process your question. Make sure you've sent a PDF first!"]
  /\ emitted w0 (snd (App.handle_question env_qdrant_client_raises (text_update "hi") w0))
     = [E_reply_text "🤔 Let me think about that..."; E_qdrant_client;
        E_reply_text
          "❌ Sorry, I couldn't process your question. Make sure you've sent a PDF first!"]
  /\ emitted w0 (snd (Handler.handle_question env_qa_ret_raises (text_update "hi") w0))
     = [E_reply_text "🤔 Let me think about that..."; E_qdrant_client;
        E_qa_ret 3 (Some "hi");
        E_reply_text
          "❌ Sorry, I couldn't process your question. Make sure you've sent a PDF first!"]
  /\ emitted w0 (snd (Handler.handle_question env_edit_raises (text_update "hi") w0))
     = [E_reply_text "🤔 Let me think about that..."; E_qdrant_client;
        E_qa_ret 3 (Some "hi"); E_edit_text 1 "🔍 blue";
        E_reply_text
          "❌ Sorry, I couldn't process your question. Make sure you've sent a PDF first!"].
Proof.
  split; [|split; [|split; [|split]]].
  - destruct (handle_question_contract env_ok (text_update "What color is the sky?") w0)
      as [[Hok _] _].
    apply (Hok 1 3 "blue"); reflexivity.
  - destruct (handle_question_contract env_placeholder_raises (text_update "hi") w0)
      as [(_ & Hrp & _) _].
    apply (Hrp boom); reflexivity.
  - destruct (handle_question_contract env_qdrant_client_raises (text_update "hi") w0)
      as [(_ & _ & Hqc & _) _].
    apply (Hqc 1 boom); reflexivity.
  - destruct (handle_question_contract env_qa_ret_raises (text_update "hi") w0)
      as (_ & (_ & _ & _ & Hqa & _) & _).
    apply (Hqa 1 3 boom); reflexivity.
  - destruct (handle_question_contract env_edit_raises (text_update "hi") w0)
      as (_ & (_ & _ & _ & _ & Hed) & _).
    apply (Hed 1 3 "blue" boom); reflexivity.
Defined.

(** C2, as worded, fails: when a pipeline step raises, the acknowledgment is
    never edited.  Here [process_pdf] raises; the acknowledgment is message 1
    and no call edits it. *)
Lemma handle_pdf_raise_leaves_acknowledgment_unedited :
  ~ acknowledged_then_edited env_process_pdf_raises pdf_update w0.
Proof.
  intros (m & text & between & after & _ & H).
  assert (Hin : In (E_edit_text m text)
                   (emitted w0 (snd (App.handle_pdf env_process_pdf_raises pdf_update w0)))).
  { rewrite H. right. apply in_or_app. right. left. reflexivity. }
  vm_compute in Hin.
  repeat destruct Hin as [Hin | Hin]; try discriminate Hin.
  exact Hin.
Qed.

(** C2, amended: [handle_pdf] first sends the acknowledgment.  When the
    download and the three pipeline steps return, it removes the temporary
    file and then edits that same acknowledgment message: to the success
    confirmation if [send_to_qdrant] returned [True], to the
    could-not-process text if it returned [False]; nothing follows the edit
    unless the edit itself raises.  When a pipeline step raises [e], the
    acknowledgment is left as it is and the last call is a new reply with the
    error text that ends with [str(e)]. *)
Theorem handle_pdf_acknowledges_then_finalizes
    (env : Env) (u : Update) (w : World)
    (d : Document) (m : Message) (f : File) (data : string) :
  let p := mktemp_name (fs w) in
  let key := getenv env "OPENAI_API_KEY" in
  let model := "text-embedding-ada-002" in
  let final (b : bool) :=
    if b then "✅ PDF processed successfully! You can now ask me questions about it."
    else "❌ Sorry, I couldn't process your PDF. Please try again." in
  let sorry e :=
    E_reply_text ("❌ Sorry, an error occurred while processing your PDF: " +:+ str env e) in
  let started :=
    [E_reply_text "Processing your PDF... 📄"; E_get_file (file_id d);
     E_NamedTemporaryFile p; E_download_to_drive f p; E_process_pdf p] in
  let out := emitted w (snd (App.handle_pdf env u w)) in
  message_document u = Some d ->
  reply_text_outcome env u "Processing your PDF... 📄" = Ok m ->
  get_file_outcome env (file_id d) = Ok f ->
  download_to_drive_outcome env f = Ok data ->
  (forall chunks emb b,
      process_pdf_outcome env p (Some data) = Ok chunks ->
      OpenAIEmbeddings_outcome env key model = Ok emb ->
      send_to_qdrant_outcome env chunks emb = Ok b ->
      out = started ++ [E_OpenAIEmbeddings key model; E_send_to_qdrant chunks emb;
                        E_os_remove p; E_edit_text m (final b)]
                    ++ match edit_text_outcome env m (final b) with
                       | Ok _ => []
                       | Raise e => [sorry e]
                       end)
  /\ (forall e,
      process_pdf_outcome env p (Some data) = Raise e ->
      out = started ++ [sorry e])
  /\ (forall chunks e,
      process_pdf_outcome env p (Some data) = Ok chunks ->
      OpenAIEmbeddings_outcome env key model = Raise e ->
      out = started ++ [E_OpenAIEmbeddings key model; sorry e])
  /\ (forall chunks emb e,
      process_pdf_outcome env p (Some data) = Ok chunks ->
      OpenAIEmbeddings_outcome env key model = Ok emb ->
      send_to_qdrant_outcome env chunks emb = Raise e ->
      out = started ++ [E_OpenAIEmbeddings key model; E_send_to_qdrant chunks emb; sorry e]).
Proof.
  intros p key model final sorry started out Hd Hack Hgf Hdl.
  subst p key model sorry started out.
  split; [|split; [|split]].
  - intros chunks emb b Hpp Hem Hsq. to_process_pdf Hack Hd Hgf Hdl.
    rewrite Hpp. step. rewrite Hem. step. rewrite Hsq. step.
    destruct b; subst final; cbv beta iota;
      (destruct (edit_text_outcome env m _) as [[] | e]; step;
       [new_events | case_outcome; new_events]).
  - intros e Hpp. to_process_pdf Hack Hd Hgf Hdl.
    rewrite Hpp. step. case_outcome; new_events.
  - intros chunks e Hpp Hem. to_process_pdf Hack Hd Hgf Hdl.
    rewrite Hpp. step. rewrite Hem. step. case_outcome; new_events.
  - intros chunks emb e Hpp Hem Hsq. to_process_pdf Hack Hd Hgf Hdl.
    rewrite Hpp. step. rewrite Hem. step. rewrite Hsq. step. case_outcome; new_events.
Qed.

Lemma handle_pdf_acknowledges_then_finalizes_witness :
  emitted w0 (snd (App.handle_pdf env_not_stored pdf_update w0))
  = [E_reply_text "Processing your PDF... 📄"; E_get_file "BQACAgQAAx0";
     E_NamedTemporaryFile "0"; E_download_to_drive 7 "0"; E_process_pdf "0";
     E_OpenAIEmbeddings (Some "sk-test") "text-embedding-ada-002";
     E_send_to_qdrant ["The sky is blue."] 2; E_os_remove "0";
     E_edit_text 1 "❌ Sorry, I couldn't process your PDF. Please try again."]
  /\ emitted w0 (snd (App.handle_pdf env_edit_raises pdf_update w0))
     = [E_reply_text "Processing your PDF... 📄"; E_get_file "BQACAgQAAx0";
        E_NamedTemporaryFile "0"; E_download_to_drive 7 "0"; E_process_pdf "0";
        E_OpenAIEmbeddings (Some "sk-test") "text-embedding-ada-002";
        E_send_to_qdrant [] 2; E_os_remove "0";
        E_edit_text 1 "✅ PDF processed successfully! You can now ask me questions about it.";
        E_reply_text "❌ Sorry, an error occurred while processing your PDF: boom"]
  /\ emitted w0 (snd (App.handle_pdf env_process_pdf_raises pdf_update w0))
     = [E_reply_text "Processing your PDF... 📄"; E_get_file "BQACAgQAAx0";
        E_NamedTemporaryFile "0"; E_download_to_drive 7 "0"; E_process_pdf "0";
        E_reply_text "❌ Sorry, an error occurred while processing your PDF: boom"]
  /\ emitted w0 (snd (App.handle_pdf env_embeddings_raise pdf_update w0))
     = [E_reply_text "Processing your PDF... 📄"; E_get_file "BQACAgQAAx0";
        E_NamedTemporaryFile "0"; E_download_to_drive 7 "0"; E_process_pdf "0";
        E_OpenAIEmbeddings (Some "sk-test") "text-embedding-ada-002";
        E_reply_text "❌ Sorry, an error occurred while processing your PDF: boom"]
  /\ emitted w0 (snd (App.handle_pdf env_send_to_qdrant_raises pdf_update w0))
     = [E_reply_text "Processing your PDF... 📄"; E_get_file "BQACAgQAAx0";
        E_NamedTemporaryFile "0"; E_download_to_drive 7 "0"; E_process_pdf "0";
        E_OpenAIEmbeddings (Some "sk-test") "text-embedding-ada-002";
        E_send_to_qdrant ["The sky is blue."] 2;
        E_reply_text "❌ Sorry, an error occurred while processing your PDF: boom"].
Proof.
  split; [|split; [|split; [|split]]].
  - destruct (handle_pdf_acknowledges_then_finalizes env_not_stored pdf_update w0
                {| file_id := "BQACAgQAAx0" |} 1 7 "%PDF-1.4 The sky is blue."
                eq_refl eq_refl eq_refl eq_refl) as (Hret & _).
    apply (Hret ["The sky is blue."] 2 false); reflexivity.
  - destruct (handle_pdf_acknowledges_then_finalizes env_edit_raises pdf_update w0
                {| file_id := "BQACAgQAAx0" |} 1 7 "%PDF-1.4 The sky is blue."
                eq_refl eq_refl eq_refl eq_refl) as (Hret & _).
    apply (Hret [] 2 true); reflexivity.
  - destruct (handle_pdf_acknowledges_then_finalizes env_process_pdf_raises pdf_update w0
                {| file_id := "BQACAgQAAx0" |} 1 7 "%PDF-1.4 The sky is blue."
                eq_refl eq_refl eq_refl eq_refl) as (_ & Hpp & _).
    apply (Hpp boom); reflexivity.
  - destruct (handle_pdf_acknowledges_then_finalizes env_embeddings_raise pdf_update w0
                {| file_id := "BQACAgQAAx0" |} 1 7 "%PDF-1.4 The sky is blue."
                eq_refl eq_refl eq_refl eq_refl) as (_ & _ & Hem & _).
    apply (Hem ["The sky is blue."] boom); reflexivity.
  - destruct (handle_pdf_acknowledges_then_finalizes env_send_to_qdrant_raises pdf_update w0
                {| file_id := "BQACAgQAAx0" |} 1 7 "%PDF-1.4 The sky is blue."
                eq_refl eq_refl eq_refl eq_refl) as (_ & _ & _ & Hsq).
    apply (Hsq ["The sky is blue."] 2 boom); reflexivity.
Defined.

(** ** Registration of the command handlers *)

Lemma exec_all_app (a b : list stmt) (st : module_state) :
  exec_all (a ++ b) st
  = match exec_all a st with
    | Some st' => exec_all b st'
    | None => None
    end.
Proof.
  revert st. induction a as [|s a IH]; intros st; simpl; [reflexivity|].
  destruct (exec s st); [apply IH | reflexivity].
Qed.

(** Definitions alone never fail and never touch the registered handlers. *)
Lemma exec_all_defs (later : list stmt) (st : module_state) :
  forallb is_Def later = true ->
  exists st', exec_all later st = Some st' /\ handlers st' = handlers st.
Proof.
  revert st. induction later as [|s later IH]; intros st Hdefs.
  - exists st. split; reflexivity.
  - simpl in Hdefs. apply andb_prop in Hdefs as [Hs Hlater].
    destruct s as [name f | command name]; [|discriminate Hs].
    simpl.
    destruct (IH {| globals := <[name := f]> (globals st); handlers := handlers st |} Hlater)
      as (st' & Hrun & Hsame).
    exists st'. split; [exact Hrun | exact Hsame].
Qed.

Lemma registered_after_head (env : Env) (later : list stmt) :
  forallb is_Def later = true ->
  registered (app_py_head env ++ later)
  = [CommandHandler "start" (App.start_command_l14 env);
     CommandHandler "help" (App.help_command_l17 env)].
Proof.
  intros Hdefs. unfold registered. rewrite exec_all_app.
  set (head := {| globals := <["help_command" := App.help_command_l17 env]>
                               (<["start_command" := App.start_command_l14 env]> ∅);
                  handlers := [CommandHandler "start" (App.start_command_l14 env);
                               CommandHandler "help" (App.help_command_l17 env)] |}).
  change (exec_all (app_py_head env) empty_module) with (Some head).
  destruct (exec_all_defs later head Hdefs) as (st' & -> & ->). reflexivity.
Qed.

Lemma bot_app_handlers (env : Env) :
  app_handlers (bot_app env)
  = [CommandHandler "start" (App.start_command_l14 env);
     CommandHandler "help" (App.help_command_l17 env)].
Proof.
  apply (registered_after_head env (app_py_tail env)). reflexivity.
Qed.

(** Every webhook request ends in an exception, with no call made and the
    process state as it was: the one that reading the body raised, or the
    [RuntimeError] of the application that was never initialized. *)
Lemma telegram_webhook_run (env : Env) (request : Request) (w : World) :
  telegram_webhook env request w
  = (Raise match request_update request with
           | Ok _ => Exception "This Application was not initialized via `Application.initialize`!"
           | Raise e => e
           end,
     w).
Proof.
  unfold telegram_webhook, de_json, process_update, mbind, M_bind, bind, raise.
  destruct (request_update request); reflexivity.
Qed.

(** C10: the handlers registered for /start and /help are the functions
    defined at lines 14 and 17; the definitions at lines 125 to 213 leave
    them as they are; and the one for /start, when it runs, makes one call:
    the reply with the single-line greeting.  The claim asks that every
    /start update gets that reply.  It does not: [bot_app] is never
    initialized, so [process_update] raises on every update before any
    handler is looked at, the webhook fails and nothing is sent. *)
Theorem start_update_gets_no_reply (env : Env) (u : Update) (w : World) :
  app_handlers (bot_app env)
  = [CommandHandler "start" (App.start_command_l14 env);
     CommandHandler "help" (App.help_command_l17 env)]
  /\ registered (app_py env) = registered (app_py_head env)
  /\ snd (App.start_command_l14 env u w)
     = log (E_reply_text
              "Hello! I am your PDF assistant bot. Send me a PDF file and then ask questions about it.")
           w
  /\ process_update env (bot_app env) u w
     = (Raise (Exception "This Application was not initialized via `Application.initialize`!"),
        w)
  /\ telegram_webhook env {| request_update := Ok u |} w
     = (Raise (Exception "This Application was not initialized via `Application.initialize`!"),
        w).
Proof.
  split; [apply bot_app_handlers | split; [|split; [|split]]].
  - unfold app_py. rewrite registered_after_head by reflexivity. reflexivity.
  - unfold_handler. case_outcome; reflexivity.
  - reflexivity.
  - apply telegram_webhook_run.
Qed.

(** * Further properties of the handlers *)

(** ** What an upload leaves on disk *)

(** An upload ends with the disk as it found it, or with one more file: the
    temporary file, holding the uploaded bytes. *)
Lemma upload_pdf_disk (env : Env) (file : UploadFile) (w : World) :
  fs (snd (App.upload_pdf env file w)) = fs w
  \/ fs (snd (App.upload_pdf env file w))
     = <[mktemp_name (fs w) := file_read file]> (fs w).
Proof.
  unfold_handler. step.
  repeat (case_outcome; step);
    try match goal with |- context [if ?b then _ else _] => destruct b end;
    cbn [fs snd]; rewrite ?insert_insert_eq; auto.
Qed.


Lemma ask_question_disk (env : Env) (q : QuestionRequest) (w : World) :
  fs (snd (App.ask_question env q w)) = fs w.
Proof.
  unfold_handler. repeat (case_outcome; step); reflexivity.
Qed.

Lemma insert_fresh_keeps (files : gmap string string) (data p v : string) :
  files !! p = Some v -> <[mktemp_name files := data]> files !! p = Some v.
Proof.
  intros Hp. rewrite lookup_insert_ne; [exact Hp|].
  intros <-. rewrite mktemp_name_fresh in Hp. discriminate Hp.
Qed.

(** X1: every response of [upload_pdf] is the success message or an
    [HTTPException] with status 500 whose detail is "Failed to process PDF: "
    followed by the text of an exception.  No other status and no other
    exception leaves the handler, and the text "Failed to store PDF in vector
    DB" never reaches the client as the detail itself. *)
Theorem upload_pdf_responses (env : Env) (file : UploadFile) (w : World) :
  (fst (App.upload_pdf env file w)
   = Ok [("message", "PDF successfully processed and stored in vector DB")]
   \/ exists e,
       fst (App.upload_pdf env file w)
       = Raise (HTTPException 500 ("Failed to process PDF: " +:+ str env e)))
  /\ fst (App.upload_pdf env file w)
     <> Raise (HTTPException 500 "Failed to store PDF in vector DB").
Proof.
  assert (Hshape :
    fst (App.upload_pdf env file w)
    = Ok [("message", "PDF successfully processed and stored in vector DB")]
    \/ exists e,
        fst (App.upload_pdf env file w)
        = Raise (HTTPException 500 ("Failed to process PDF: " +:+ str env e))).
  { unfold_handler. step.
    repeat (case_outcome; step);
      try match goal with |- context [if ?b then _ else _] => destruct b end;
      cbn [fst]; eauto. }
  split; [exact Hshape|].
  destruct Hshape as [-> | [e ->]]; [discriminate|].
  intros H. inversion H.
Qed.



(** The events of a run, once its trace is known. *)
Ltac events_in H :=
  erewrite emitted_app in H
    by (cbn [fs trace fst snd]; rewrite <- ?app_assoc; reflexivity);
  cbn [app] in H;
  repeat (apply elem_of_cons in H as [H | H]; [try discriminate H|]);
  try (apply elem_of_nil in H; destruct H).

(** X3: in [upload_pdf], [send_to_qdrant] is called only with the chunks
    that [process_pdf] returned for the temporary file and with the embedding
    model that was just constructed; it is never called once one of the two
    has raised. *)
Theorem upload_pdf_sends_what_it_processed (env : Env) (file : UploadFile) (w : World)
    (chunks : list string) (emb : Embeddings) :
  E_send_to_qdrant chunks emb ∈ emitted w (snd (App.upload_pdf env file w)) ->
  process_pdf_outcome env (mktemp_name (fs w)) (Some (file_read file)) = Ok chunks
  /\ OpenAIEmbeddings_outcome env (getenv env "OPENAI_API_KEY") "text-embedding-ada-002"
     = Ok emb.
Proof.
  unfold_handler. step.
  destruct (process_pdf_outcome env _ _) as [chunks' | e] eqn:Hpp; step;
    [|intros H; events_in H].
  destruct (OpenAIEmbeddings_outcome env _ _) as [emb' | e] eqn:Hem; step;
    [|intros H; events_in H].
  destruct (send_to_qdrant_outcome env chunks' emb') as [[|] | e]; step;
    intros H; events_in H; inversion H; subst; auto.
Qed.

Lemma upload_pdf_sends_what_it_processed_witness :
  process_pdf_outcome env_ok "0" (Some "%PDF-1.4 The sky is blue.") = Ok ["The sky is blue."]
  /\ OpenAIEmbeddings_outcome env_ok (Some "sk-test") "text-embedding-ada-002" = Ok 2.
Proof.
  apply (upload_pdf_sends_what_it_processed env_ok sky_pdf w0 ["The sky is blue."] 2).
  vm_compute. do 4 right. left.
Defined.

(** ** Edge paths of [handle_pdf] *)

(** X4: when [handle_pdf] fails before it creates the temporary file (the
    acknowledgment cannot be sent, the message carries no document, or
    [get_file] raises) it sends the error reply as its next and last call:
    nothing is downloaded, no pipeline step runs and the disk is untouched. *)
Theorem handle_pdf_early_failures (env : Env) (u : Update) (w : World) :
  let ack := "Processing your PDF... 📄" in
  let sorry e :=
    E_reply_text ("❌ Sorry, an error occurred while processing your PDF: " +:+ str env e) in
  let run := App.handle_pdf env u w in
  (forall e,
      reply_text_outcome env u ack = Raise e ->
      emitted w (snd run) = [E_reply_text ack; sorry e] /\ fs (snd run) = fs w)
  /\ (forall m,
      reply_text_outcome env u ack = Ok m ->
      message_document u = None ->
      emitted w (snd run)
      = [E_reply_text ack;
         sorry (AttributeError "'NoneType' object has no attribute 'file_id'")]
      /\ fs (snd run) = fs w)
  /\ (forall m d e,
      reply_text_outcome env u ack = Ok m ->
      message_document u = Some d ->
      get_file_outcome env (file_id d) = Raise e ->
      emitted w (snd run) = [E_reply_text ack; E_get_file (file_id d); sorry e]
      /\ fs (snd run) = fs w).
Proof.
  intros ack sorry run. subst ack sorry run.
  split; [|split].
  - intros e Hack. unfold_handler. rewrite Hack. step.
    case_outcome; (split; [new_events | reflexivity]).
  - intros m Hack Hd. unfold_handler. rewrite Hack, Hd. step.
    case_outcome; (split; [new_events | reflexivity]).
  - intros m d e Hack Hd Hgf. unfold_handler. rewrite Hack, Hd. step. rewrite Hgf. step.
    case_outcome; (split; [new_events | reflexivity]).
Qed.

Lemma handle_pdf_early_failures_witness :
  emitted w0 (snd (App.handle_pdf env_acknowledgment_raises pdf_update w0))
  = [E_reply_text "Processing your PDF... 📄";
     E_reply_text "❌ Sorry, an error occurred while processing your PDF: boom"]
  /\ emitted w0 (snd (App.handle_pdf env_ok (text_update "hello") w0))
     = [E_reply_text "Processing your PDF... 📄";
        E_reply_text
          "❌ Sorry, an error occurred while processing your PDF: 'NoneType' object has no attribute 'file_id'"]
  /\ fs (snd (App.handle_pdf env_get_file_raises pdf_update w0)) = ∅.
Proof.
  split; [|split].
  - destruct (handle_pdf_early_failures env_acknowledgment_raises pdf_update w0)
      as (Hack & _ & _).
    apply (Hack boom). reflexivity.
  - destruct (handle_pdf_early_failures env_ok (text_update "hello") w0) as (_ & Hdoc & _).
    apply (Hdoc 1); reflexivity.
  - destruct (handle_pdf_early_failures env_get_file_raises pdf_update w0) as (_ & _ & Hgf).
    apply (Hgf 1 {| file_id := "BQACAgQAAx0" |} boom); reflexivity.
Defined.

(** X5: when the download raises, [handle_pdf] has already created the
    temporary file: it replies with the error and leaves the file on disk,
    empty.  [process_pdf] is not called. *)
Theorem handle_pdf_failed_download_leaves_empty_file
    (env : Env) (u : Update) (w : World) (m : Message) (d : Document) (f : File) (e : exn) :
  let p := mktemp_name (fs w) in
  let run := App.handle_pdf env u w in
  reply_text_outcome env u "Processing your PDF... 📄" = Ok m ->
  message_document u = Some d ->
  get_file_outcome env (file_id d) = Ok f ->
  download_to_drive_outcome env f = Raise e ->
  emitted w (snd run)
  = [E_reply_text "Processing your PDF... 📄"; E_get_file (file_id d);
     E_NamedTemporaryFile p; E_download_to_drive f p;
     E_reply_text ("❌ Sorry, an error occurred while processing your PDF: " +:+ str env e)]
  /\ fs (snd run) = <[p := ""]> (fs w)
  /\ fs w !! p = None.
Proof.
  intros p run Hack Hd Hgf Hdl. subst p run.
  to_process_pdf Hack Hd Hgf Hdl.
  case_outcome; (split; [new_events | split; [reflexivity | apply mktemp_name_fresh]]).
Qed.

Lemma handle_pdf_failed_download_leaves_empty_file_witness :
  fs (snd (App.handle_pdf env_download_raises pdf_update w0)) = {[ "0" := "" ]}.
Proof.
  destruct (handle_pdf_failed_download_leaves_empty_file env_download_raises pdf_update w0
              1 {| file_id := "BQACAgQAAx0" |} 7 boom eq_refl eq_refl eq_refl eq_refl)
    as (_ & Hfs & _).
  exact Hfs.
Defined.

(** X6: when the pipeline has returned and only the final edit of the
    acknowledgment raises [e], the temporary file is already removed and the
    user is sent the processing-error reply with [str(e)], also when
    [send_to_qdrant] returned [True] and the document is stored. *)
Theorem handle_pdf_failed_edit_reports_processing_error
    (env : Env) (u : Update) (w : World) (m : Message) (d : Document) (f : File)
    (data : string) (chunks : list string) (emb : Embeddings) (b : bool) (e : exn) :
  let p := mktemp_name (fs w) in
  let key := getenv env "OPENAI_API_KEY" in
  let model := "text-embedding-ada-002" in
  let final :=
    if b then "✅ PDF processed successfully! You can now ask me questions about it."
    else "❌ Sorry, I couldn't process your PDF. Please try again." in
  let run := App.handle_pdf env u w in
  reply_text_outcome env u "Processing your PDF... 📄" = Ok m ->
  message_document u = Some d ->
  get_file_outcome env (file_id d) = Ok f ->
  download_to_drive_outcome env f = Ok data ->
  process_pdf_outcome env p (Some data) = Ok chunks ->
  OpenAIEmbeddings_outcome env key model = Ok emb ->
  send_to_qdrant_outcome env chunks emb = Ok b ->
  edit_text_outcome env m final = Raise e ->
  emitted w (snd run)
  = [E_reply_text "Processing your PDF... 📄"; E_get_file (file_id d);
     E_NamedTemporaryFile p; E_download_to_drive f p; E_process_pdf p;
     E_OpenAIEmbeddings key model; E_send_to_qdrant chunks emb; E_os_remove p;
     E_edit_text m final;
     E_reply_text ("❌ Sorry, an error occurred while processing your PDF: " +:+ str env e)]
  /\ fs (snd run) = fs w.
Proof.
  intros p key model final run Hack Hd Hgf Hdl Hpp Hem Hsq Hed. subst p key model run.
  to_process_pdf Hack Hd Hgf Hdl.
  rewrite Hpp. step. rewrite Hem. step. rewrite Hsq. step.
  destruct b; subst final; rewrite Hed; step;
    case_outcome; (split; [new_events | reflexivity]).
Qed.

Lemma handle_pdf_failed_edit_reports_processing_error_witness :
  emitted w0 (snd (App.handle_pdf env_edit_raises pdf_update w0))
  = [E_reply_text "Processing your PDF... 📄"; E_get_file "BQACAgQAAx0";
     E_NamedTemporaryFile "0"; E_download_to_drive 7 "0"; E_process_pdf "0";
     E_OpenAIEmbeddings (Some "sk-test") "text-embedding-ada-002";
     E_send_to_qdrant [] 2; E_os_remove "0";
     E_edit_text 1 "✅ PDF processed successfully! You can now ask me questions about it.";
     E_reply_text "❌ Sorry, an error occurred while processing your PDF: boom"].
Proof.
  destruct (handle_pdf_failed_edit_reports_processing_error env_edit_raises pdf_update w0
              1 {| file_id := "BQACAgQAAx0" |} 7 "%PDF-1.4 The sky is blue." [] 2 true boom
              eq_refl eq_refl eq_refl eq_refl eq_refl eq_refl eq_refl eq_refl)
    as (Hev & _).
  exact Hev.
Defined.

(** ** When a Telegram handler raises *)

Ltac case_outcome_eq :=
  match goal with
  | |- context [match ?r with Ok _ => _ | Raise _ => _ end] => destruct r eqn:?
  end.



(** X12: [handle_question] never changes the disk, and it calls [qa_ret]
    only after the placeholder was sent, with the handle [qdrant_client]
    returned and the message text as it came. *)
Theorem handle_question_reads_only (env : Env) (u : Update) (w : World)
    (store : VectorStore) (q : option string) :
  fs (snd (App.handle_question env u w)) = fs w
  /\ (E_qa_ret store q ∈ emitted w (snd (App.handle_question env u w)) ->
      qdrant_client_outcome env = Ok store
      /\ q = message_text u
      /\ exists m, reply_text_outcome env u "🤔 Let me think about that..." = Ok m).
Proof.
  split.
  - unfold_handler. repeat (case_outcome; step); reflexivity.
  - unfold_handler. repeat (case_outcome_eq; step);
      intros H; events_in H; inversion H; subst; eauto.
Qed.

Lemma handle_question_reads_only_witness :
  qdrant_client_outcome env_ok = Ok 3
  /\ Some "hi" = message_text (text_update "hi")
  /\ exists m, reply_text_outcome env_ok (text_update "hi") "🤔 Let me think about that..."
               = Ok m.
Proof.
  apply (proj2 (handle_question_reads_only env_ok (text_update "hi") w0 3 (Some "hi"))).
  vm_compute. do 2 right. left.
Defined.

(** ** The webhook *)

(** X8: no request to [telegram_webhook] is answered with the "ok"
    status.  When reading the body raises, that exception leaves the
    endpoint; when the body gives an update, [process_update] raises the
    [RuntimeError] of the application that was never initialized.  In both
    cases no Telegram call is made, no handler runs and the disk is
    untouched. *)
Theorem telegram_webhook_always_raises (env : Env) (request : Request) (w : World) :
  exists e,
    telegram_webhook env request w = (Raise e, w)
    /\ (request_update request = Raise e
        \/ (exists u, request_update request = Ok u)
           /\ e = Exception "This Application was not initialized via `Application.initialize`!").
Proof.
  rewrite telegram_webhook_run.
  destruct (request_update request) as [u | e] eqn:Hbody.
  - eexists. split; [reflexivity | right; eauto].
  - exists e. auto.
Qed.

(** ** Sequences of requests *)

Lemma serve_all_cons (env : Env) (r : request) (rs : list request) (w : World) :
  serve_all env (r :: rs) w = serve_all env rs (snd (route env r w)).
Proof.
  reflexivity.
Qed.

(** X9: whatever requests are served, in whatever order and with whatever
    outcome, a file that was on disk before is still there with the same
    contents afterwards. *)
Theorem served_requests_keep_existing_files
    (env : Env) (rs : list request) (w : World) (p v : string) :
  fs w !! p = Some v ->
  fs (serve_all env rs w) !! p = Some v.
Proof.
  revert w. induction rs as [|r rs IH]; intros w Hp; [exact Hp|].
  rewrite serve_all_cons. apply IH.
  destruct r as [file | q | | u]; cbn [route].
  - destruct (upload_pdf_disk env file w) as [-> | ->];
      [exact Hp | apply insert_fresh_keeps, Hp].
  - rewrite ask_question_disk. exact Hp.
  - exact Hp.
  - rewrite telegram_webhook_run. exact Hp.
Qed.

Lemma served_requests_keep_existing_files_witness :
  fs (serve_all env_process_pdf_raises
        [POST_upload_pdf sky_pdf; POST_ask_question {| question := "why?" |};
         POST_upload_pdf sky_pdf; GET_root]
        w_old) !! "/tmp/old.pdf"
  = Some "old".
Proof.
  apply (served_requests_keep_existing_files env_process_pdf_raises
           [POST_upload_pdf sky_pdf; POST_ask_question {| question := "why?" |};
            POST_upload_pdf sky_pdf; GET_root]
           w_old "/tmp/old.pdf" "old").
  reflexivity.
Defined.



(** X11: when the three pipeline steps return on every input (also with
    [send_to_qdrant] answering [False]), any sequence of requests leaves the
    disk exactly as it found it. *)
Theorem disk_unchanged_when_pipeline_returns (env : Env) (rs : list request) (w : World) :
  (forall p d, exists chunks, process_pdf_outcome env p d = Ok chunks) ->
  (exists emb, OpenAIEmbeddings_outcome env (getenv env "OPENAI_API_KEY")
                 "text-embedding-ada-002" = Ok emb) ->
  (forall chunks emb, exists b, send_to_qdrant_outcome env chunks emb = Ok b) ->
  fs (serve_all env rs w) = fs w.
Proof.
  intros Hpp [emb Hem] Hsq. revert w.
  induction rs as [|r rs IH]; intros w; [reflexivity|].
  rewrite serve_all_cons, IH.
  destruct r as [file | q | | u]; cbn [route].
  - destruct (Hpp (mktemp_name (fs w)) (Some (file_read file))) as [chunks Hchunks].
    destruct (Hsq chunks emb) as [b Hb].
    unfold_handler. step. rewrite Hchunks. step. rewrite Hem. step. rewrite Hb. step.
    destruct b; reflexivity.
  - apply ask_question_disk.
  - reflexivity.
  - rewrite telegram_webhook_run. reflexivity.
Qed.

Lemma disk_unchanged_when_pipeline_returns_witness :
  fs (serve_all env_not_stored
        [POST_upload_pdf sky_pdf; POST_telegram_webhook {| request_update := Ok pdf_update |};
         POST_upload_pdf sky_pdf]
        w_old)
  = fs w_old.
Proof.
  apply (disk_unchanged_when_pipeline_returns env_not_stored).
  - intros p d. exists ["The sky is blue."]. reflexivity.
  - exists 2. reflexivity.
  - intros chunks emb. exists false. reflexivity.
Defined.
